(** * hooks/ios_reminder_hook.py: the iOS best-practices reminder hook

    A shallow embedding of the hook script and the properties of its
    behaviour.  The script reads one JSON object from standard input,
    looks at [tool_input.file_path] and the proposed text, and prints one
    JSON object: always [decision = approve], with a [message] when one of
    four substring rules matches.

    Layout:
    - [Str]: the Python string methods the script calls;
    - the values [json.loads] can return, and the dynamically typed
      operations on them (each raises what Python raises);
    - [json.dumps] on the dicts the script prints;
    - a small state-and-exception monad for the two output streams;
    - [main], statement by statement, and [run], the script as a process;
    - the vocabulary of the theorems and some sample inputs;
    - the theorems, then further properties of [main]: the third rule,
      missing keys and wrong types, the text on the streams, the keys
      that are not read. *)

From Stdlib Require Import String Ascii List ZArith Lia SpecFloat.
From stdpp Require Import gmap strings.

(** ** Characters the script writes but Rocq literals cannot *)

Definition DQUOTE : ascii := "034"%char.
Definition LF : ascii := "010"%char.
Definition newline : string := String LF "".

(** ** Python [str] methods

    A [str] is modelled as a [string], one [ascii] per character: these
    are the code points below 256.  Every pattern the script looks for,
    and every text it prints, is plain ASCII. *)
Module Str.

(** [s.endswith(suffix)]: some tail of [s] is [suffix]. *)
Fixpoint endswith (s suffix : string) : bool :=
  String.eqb s suffix ||
  match s with
  | EmptyString => false
  | String _ s' => endswith s' suffix
  end.

(** [startswith], the test made at each position by [sub in s]. *)
Fixpoint startswith (s pre : string) {struct pre} : bool :=
  match pre, s with
  | EmptyString, _ => true
  | String _ _, EmptyString => false
  | String a pre', String b s' => Ascii.eqb a b && startswith s' pre'
  end.

(** [sub in s]: [sub] occurs at some position of [s]. *)
Fixpoint contains (sub s : string) : bool :=
  startswith s sub ||
  match s with
  | EmptyString => false
  | String _ s' => contains sub s'
  end.

(** [s.count(c)] for a one-character [c]. *)
Fixpoint count (s : string) (c : ascii) : nat :=
  match s with
  | EmptyString => 0
  | String a s' => (if Ascii.eqb a c then 1 else 0) + count s' c
  end.

(** [c.lower()] on one character: the capital letters, A to Z and the
    accented ones from 192 to 222 (215, the multiplication sign, is not a
    letter), move 32 places up. *)
Definition lower_char (c : ascii) : ascii :=
  let n := N_of_ascii c in
  if (65 <=? n)%N && (n <=? 90)%N
     || (192 <=? n)%N && (n <=? 222)%N && negb (n =? 215)%N
  then ascii_of_N (n + 32)
  else c.

(** [s.lower()]. *)
Fixpoint lower (s : string) : string :=
  match s with
  | EmptyString => EmptyString
  | String a s' => String (lower_char a) (lower s')
  end.

(** [sep.join(parts)]. *)
Fixpoint join (sep : string) (parts : list string) : string :=
  match parts with
  | [] => ""
  | [p] => p
  | p :: rest => p +:+ sep +:+ join sep rest
  end.

(** [s.split(sep)] for a one-character [sep]; used to read a message
    back as lines. *)
Fixpoint split (sep : ascii) (s : string) : list string :=
  match s with
  | EmptyString => [""]
  | String a s' =>
      if Ascii.eqb a sep then "" :: split sep s'
      else match split sep s' with
           | [] => [String a ""]
           | l :: ls => String a l :: ls
           end
  end.

End Str.

(** ** Values returned by [json.loads] *)

#[warnings="-register-all"]
Inductive value : Type :=
  | PNone
  | PBool (b : bool)
  | PInt (n : Z)
  | PFloat (x : spec_float)
  | PStr (s : string)
  | PList (l : list value)
  | PDict (d : gmap string value).

(** ** Exceptions

    Every class listed here derives from [Exception], so the script's
    [except Exception] clause catches each of them. *)
Inductive exn : Type :=
  | JSONDecodeError
  | UnicodeDecodeError
  | RecursionError
  | AttributeError
  | TypeError.

Inductive result (A : Type) : Type :=
  | Ok (a : A)
  | Raise (e : exn).
Arguments Ok {A} a.
Arguments Raise {A} e.

#[global] Instance result_ret : MRet result := λ A a, Ok a.
#[global] Instance result_bind : MBind result := λ A B (f : A → result B) (r : result A),
  match r with
  | Ok a => f a
  | Raise e => Raise e
  end.
#[global] Instance result_fmap : FMap result := λ A B (f : A → B) (r : result A),
  match r with
  | Ok a => Ok (f a)
  | Raise e => Raise e
  end.

(** [a and b]: [b] is evaluated only when [a] is true. *)
Definition and_then (a b : result bool) : result bool :=
  a ≫= λ x : bool, if x then b else mret false.

(** [a or b] on bools: [b] is evaluated only when [a] is false. *)
Definition or_else (a b : result bool) : result bool :=
  a ≫= λ x : bool, if x then mret true else b.

(** ** Dynamically typed operations *)

(** [bool(v)]: the truth value Python gives an object. *)
Definition truthy (v : value) : bool :=
  match v with
  | PNone => false
  | PBool b => b
  | PInt n => negb (n =? 0)%Z
  | PFloat (S754_zero _) => false
  | PFloat _ => true
  | PStr s => negb (String.eqb s "")
  | PList l => match l with [] => false | _ :: _ => true end
  | PDict d => match map_to_list d with [] => false | _ :: _ => true end
  end.

(** [obj.get(key, default)]: only a dict has the method. *)
Definition get (obj : value) (key : string) (default : value) : result value :=
  match obj with
  | PDict d => Ok (match d !! key with Some v => v | None => default end)
  | _ => Raise AttributeError
  end.

(** [obj.endswith(suffix)]: only a str has the method. *)
Definition py_endswith (obj : value) (suffix : string) : result bool :=
  match obj with
  | PStr s => Ok (Str.endswith s suffix)
  | _ => Raise AttributeError
  end.

(** [v == s] for a str [s]. *)
Definition eq_str (s : string) (v : value) : bool :=
  match v with
  | PStr t => String.eqb t s
  | _ => false
  end.

(** [sub in obj]: substring test on a str, membership on a list, key
    test on a dict; the other values are not containers. *)
Definition py_in (sub : string) (obj : value) : result bool :=
  match obj with
  | PStr s => Ok (Str.contains sub s)
  | PList l => Ok (existsb (eq_str sub) l)
  | PDict d => Ok (match d !! sub with Some _ => true | None => false end)
  | PNone | PBool _ | PInt _ | PFloat _ => Raise TypeError
  end.

Definition py_not_in (sub : string) (obj : value) : result bool :=
  negb <$> py_in sub obj.

(** [obj.lower()]: only a str has the method. *)
Definition py_lower (obj : value) : result value :=
  match obj with
  | PStr s => Ok (PStr (Str.lower s))
  | _ => Raise AttributeError
  end.

(** [obj.count(c)] for a one-character str [c]: a str and a list have
    the method. *)
Definition py_count (obj : value) (c : ascii) : result nat :=
  match obj with
  | PStr s => Ok (Str.count s c)
  | PList l => Ok (length (List.filter (eq_str (String c "")) l))
  | _ => Raise AttributeError
  end.

(** ** [json.dumps] on the dicts the script builds

    The script only dumps dicts from str to str.  A dict keeps insertion
    order, which is the order of the list.  Defaults of [json.dumps]:
    separators [", "] and [": "], and [ensure_ascii], so that everything
    outside printable ASCII is escaped. *)

Definition hex_digit (n : N) : ascii :=
  if (n <? 10)%N then ascii_of_N (48 + n) else ascii_of_N (87 + n).

Definition escape_char (c : ascii) : string :=
  let n := N_of_ascii c in
  if Ascii.eqb c DQUOTE then String "\" (String DQUOTE "")
  else if Ascii.eqb c "\" then "\\"
  else if (n =? 10)%N then "\n"
  else if (n =? 13)%N then "\r"
  else if (n =? 9)%N then "\t"
  else if (n =? 8)%N then "\b"
  else if (n =? 12)%N then "\f"
  else if (32 <=? n)%N && (n <=? 126)%N then String c ""
  else "\u00" +:+ String (hex_digit (n / 16)) (String (hex_digit (n mod 16)) "").

Fixpoint escape (s : string) : string :=
  match s with
  | EmptyString => ""
  | String c s' => escape_char c +:+ escape s'
  end.

Definition dumps_str (s : string) : string :=
  String DQUOTE (escape s) +:+ String DQUOTE "".

Definition dumps_item (kv : string * string) : string :=
  dumps_str kv.1 +:+ ": " +:+ dumps_str kv.2.

Definition json_dumps (obj : list (string * string)) : string :=
  "{" +:+ Str.join ", " (map dumps_item obj) +:+ "}".

(** ** The two output streams, and statements that may raise *)

Record streams : Type := { sys_stdout : string; sys_stderr : string }.

Inductive stream : Type := Stdout | Stderr.

(** A statement takes the streams as they are, returns or raises, and
    leaves the streams with what it has written: text printed before an
    exception stays printed. *)
Definition Py (A : Type) : Type := streams → result A * streams.

#[global] Instance Py_ret : MRet Py := λ A a st, (Ok a, st).
#[global] Instance Py_bind : MBind Py := λ A B (f : A → Py B) (c : Py A) st,
  match c st with
  | (Ok a, st') => f a st'
  | (Raise e, st') => (Raise e, st')
  end.

(** An expression: it writes nothing. *)
Definition eval {A : Type} (r : result A) : Py A := λ st, (r, st).

(** [print(text, file=file)]. *)
Definition print (text : string) (file : stream) : Py unit := λ st,
  (Ok (),
   match file with
   | Stdout => {| sys_stdout := sys_stdout st +:+ text +:+ newline;
                  sys_stderr := sys_stderr st |}
   | Stderr => {| sys_stdout := sys_stdout st;
                  sys_stderr := sys_stderr st +:+ text +:+ newline |}
   end).

(** [try: body  except Exception as e: handler]. Every [exn] derives from
    [Exception]. *)
Definition try_except (body : Py unit) (handler : exn → Py unit) : Py unit :=
  λ st,
  match body st with
  | (Ok tt, st') => (Ok tt, st')
  | (Raise e, st') => handler e st'
  end.

(** ** The script *)

Definition ADVICE_OBSERVABLE : string :=
  "Consider using @Observable (iOS 17+) instead of ObservableObject".
Definition ADVICE_FORCE_UNWRAP : string :=
  "Avoid force unwrapping - use guard let or if let".
Definition ADVICE_MAIN_ACTOR : string :=
  "Consider @MainActor instead of DispatchQueue.main in async contexts".
Definition ADVICE_LAZY_VSTACK : string :=
  "Consider LazyVStack for better performance with ForEach".

Definition HEADER : string := "iOS Best Practices:".

(** [{"decision": "approve"}] *)
Definition approve : list (string * string) := [("decision", "approve")].

(** [{"decision": "approve", "message": reminder_text}] *)
Definition approve_with (reminder_text : string) : list (string * string) :=
  [("decision", "approve"); ("message", reminder_text)].

(** [reminders.append(r)] when [cond] holds. *)
Definition append_if (cond : bool) (reminders : list string) (r : string)
  : list string :=
  if cond then reminders ++ [r] else reminders.

(** What the caller of the script sees: the two streams and the exit
    status, 0 when [main] returns and 1 when an exception leaves it. *)
Record process : Type :=
  { stdout : string; stderr : string; exit_status : Z }.

(** The four [if] statements that fill [reminders]. *)
Definition check (content : value) : result (list string) :=
  let reminders := [] in
  c ← and_then (py_in "ObservableObject" content)
               (py_not_in "@Observable" content);
  let reminders := append_if c reminders ADVICE_OBSERVABLE in
  c ← or_else (low ← py_lower content; py_in "force unwrap" low)
              (n ← py_count content "!"; mret (5 <? n));
  let reminders := append_if c reminders ADVICE_FORCE_UNWRAP in
  c ← and_then (py_in "DispatchQueue.main" content)
               (py_in "async" content);
  let reminders := append_if c reminders ADVICE_MAIN_ACTOR in
  c ← and_then (py_in "VStack {" content)
               (and_then (py_in "ForEach" content)
                         (py_not_in "LazyVStack" content));
  let reminders := append_if c reminders ADVICE_LAZY_VSTACK in
  mret reminders.

(** [tool_input.get("content", "") or tool_input.get("new_string", "")] *)
Definition content_of (tool_input : value) : result value :=
  get tool_input "content" (PStr "") ≫= λ first : value,
  if truthy first then mret first
  else get tool_input "new_string" (PStr "").

(** The [if reminders: ... else: ...] that ends the [try] block. *)
Definition report (reminders : list string) : Py unit :=
  match reminders with
  | _ :: _ =>
      let reminder_text :=
        HEADER +:+ newline +:+
        Str.join newline (map (λ r, "- " +:+ r) reminders) in
      print (json_dumps (approve_with reminder_text)) Stdout
  | [] => print (json_dumps approve) Stdout
  end.

Section Script.

(** [json.loads(sys.stdin.read())] belongs to the Python library: it
    returns the decoded value or raises. *)
Variable json_loads : string → result value.

(** The body of the [try] block. *)
Definition main_try (stdin : string) : Py unit :=
  input_data ← eval (json_loads stdin);
  tool_input ← eval (get input_data "tool_input" (PDict ∅));
  file_path ← eval (get tool_input "file_path" (PStr ""));
  eval (py_endswith file_path ".swift") ≫= λ is_swift : bool,
  if negb is_swift then
    print (json_dumps approve) Stdout
  else
    content ← eval (content_of tool_input);
    reminders ← eval (check content);
    report reminders.

Definition main (stdin : string) : Py unit :=
  try_except (main_try stdin)
             (λ e, print (json_dumps approve) Stderr).

(** Running the script on [stdin], both streams empty at the start. *)
Definition run (stdin : string) : process :=
  match main stdin {| sys_stdout := ""; sys_stderr := "" |} with
  | (Ok tt, st) =>
      {| stdout := sys_stdout st; stderr := sys_stderr st; exit_status := 0 |}
  | (Raise _, st) =>
      {| stdout := sys_stdout st; stderr := sys_stderr st; exit_status := 1 |}
  end.

End Script.

(** ** Reading the behaviour

    The definitions below are not statements of the script: they name what
    the theorems talk about. *)

(** The four conditions, once [content] is known to be a str. *)
Definition rule_observable (content : string) : bool :=
  Str.contains "ObservableObject" content &&
  negb (Str.contains "@Observable" content).

Definition rule_force_unwrap (content : string) : bool :=
  Str.contains "force unwrap" (Str.lower content) ||
  (5 <? Str.count content "!").

Definition rule_main_actor (content : string) : bool :=
  Str.contains "DispatchQueue.main" content &&
  Str.contains "async" content.

Definition rule_lazy_vstack (content : string) : bool :=
  Str.contains "VStack {" content &&
  (Str.contains "ForEach" content &&
   negb (Str.contains "LazyVStack" content)).

(** The advisories of the rules flagged in [fired], in rule order. *)
Definition advisories (fired : bool * bool * bool * bool) : list string :=
  let '(r1, r2, r3, r4) := fired in
  (if r1 then [ADVICE_OBSERVABLE] else []) ++
  (if r2 then [ADVICE_FORCE_UNWRAP] else []) ++
  (if r3 then [ADVICE_MAIN_ACTOR] else []) ++
  (if r4 then [ADVICE_LAZY_VSTACK] else []).

Definition fired (content : string) : bool * bool * bool * bool :=
  (rule_observable content, rule_force_unwrap content,
   rule_main_actor content, rule_lazy_vstack content).

(** One advisory as a line of the message. *)
Definition bullet (r : string) : string := "- " +:+ r.

(** The dict [report] dumps for a given list of reminders. *)
Definition response (reminders : list string) : list (string * string) :=
  match reminders with
  | [] => approve
  | _ :: _ =>
      approve_with (HEADER +:+ newline +:+ Str.join newline (map bullet reminders))
  end.

(** The dict the [try] block prints on standard output, or the exception
    it raises before printing. *)
Definition answer (json_loads : string → result value) (stdin : string)
  : result (list (string * string)) :=
  input_data ← json_loads stdin;
  tool_input ← get input_data "tool_input" (PDict ∅);
  file_path ← get tool_input "file_path" (PStr "");
  py_endswith file_path ".swift" ≫= λ is_swift : bool,
  if negb is_swift then mret approve
  else
    content ← content_of tool_input;
    reminders ← check content;
    mret (response reminders).

(** What [print] writes for a dumped dict. *)
Definition printed (obj : list (string * string)) : string :=
  json_dumps obj +:+ newline.

(** The script printed [obj] on standard output and nothing else. *)
Definition on_stdout (obj : list (string * string)) : process :=
  {| stdout := printed obj; stderr := ""; exit_status := 0 |}.

(** The script printed [obj] on the error stream and nothing else. *)
Definition on_stderr (obj : list (string * string)) : process :=
  {| stdout := ""; stderr := printed obj; exit_status := 0 |}.

(** [obj.get(key)] on a dumped dict. *)
Fixpoint field (key : string) (obj : list (string * string)) : option string :=
  match obj with
  | [] => None
  | (k, v) :: rest => if String.eqb k key then Some v else field key rest
  end.

(** The lines of the message after its first line; none without a
    message. *)
Definition advisory_lines (obj : list (string * string)) : list string :=
  match field "message" obj with
  | Some text => tail (Str.split LF text)
  | None => []
  end.

(** The input shape the rules are about: [stdin] decodes to an object
    whose [tool_input] is an object, whose [file_path] is a str ending in
    [.swift], and whose selected content is the str [content]. *)
Definition swift_edit (json_loads : string → result value) (stdin : string)
    (content : string) : Prop :=
  ∃ input_data tool_input file_path,
    json_loads stdin = Ok input_data ∧
    get input_data "tool_input" (PDict ∅) = Ok tool_input ∧
    get tool_input "file_path" (PStr "") = Ok (PStr file_path) ∧
    Str.endswith file_path ".swift" = true ∧
    content_of tool_input = Ok (PStr content).

(** The content string as the data model words it: the [content] field
    when present and not empty, otherwise the [new_string] field when
    present, otherwise the empty string. *)
Definition spec_content (content new_string : option string) : string :=
  match content with
  | Some (String a c) => String a c
  | Some EmptyString | None =>
      match new_string with
      | Some s => s
      | None => ""
      end
  end.

(** The message as the interface words it: the header line, then one
    line per advisory, joined by newlines. *)
Definition spec_message (reminders : list string) : string :=
  Str.join newline (HEADER :: map bullet reminders).

(** The four advisories in the order of their [if] statements. *)
Definition RULE_ORDER : list string :=
  [ADVICE_OBSERVABLE; ADVICE_FORCE_UNWRAP; ADVICE_MAIN_ACTOR;
   ADVICE_LAZY_VSTACK].

(** ** Sample inputs

    A decoder that knows one JSON text, and the texts and values used to
    exercise the theorems. *)

Definition loads_only (text : string) (decoded : value)
  : string → result value :=
  λ stdin,
    if String.eqb stdin text then Ok decoded else Raise JSONDecodeError.

(** [{"tool_input": {...}}] with str fields, as text and as value. *)
Definition edit_text (fields : list (string * string)) : string :=
  "{" +:+ dumps_str "tool_input" +:+ ": " +:+ json_dumps fields +:+ "}".

Definition tool_input_of (fields : list (string * string))
  : gmap string value :=
  list_to_map (map (λ kv, (kv.1, PStr kv.2)) fields).

Definition edit_value (fields : list (string * string)) : value :=
  PDict {[ "tool_input" := PDict (tool_input_of fields) ]}.

Definition loads_edit (fields : list (string * string))
  : string → result value :=
  loads_only (edit_text fields) (edit_value fields).

Definition swift_fields (content : string) : list (string * string) :=
  [("file_path", "View.swift"); ("content", content)].

(** An edit whose text is in [new_string], with an empty [content]. *)
Definition fallback_fields : list (string * string) :=
  [("file_path", "View.swift"); ("content", "");
   ("new_string", "// force unwrap")].

(** [{"tool_input": {"file_path": "View.swift", "content": 5}}] *)
Definition bad_content_text : string :=
  "{" +:+ dumps_str "tool_input" +:+ ": {" +:+
  dumps_str "file_path" +:+ ": " +:+ dumps_str "View.swift" +:+ ", " +:+
  dumps_str "content" +:+ ": 5}}".

Definition bad_content_value : value :=
  PDict {[ "tool_input" :=
             PDict (<[ "file_path" := PStr "View.swift" ]>
                    (<[ "content" := PInt 5 ]> ∅)) ]}.

(** [{"tool_input": {"file_path": "notes.md", "content": 5}}] *)
Definition markdown_text : string :=
  "{" +:+ dumps_str "tool_input" +:+ ": {" +:+
  dumps_str "file_path" +:+ ": " +:+ dumps_str "notes.md" +:+ ", " +:+
  dumps_str "content" +:+ ": 5}}".

Definition markdown_value : value :=
  PDict {[ "tool_input" :=
             PDict (<[ "file_path" := PStr "notes.md" ]>
                    (<[ "content" := PInt 5 ]> ∅)) ]}.

(** A content that triggers exactly the rules flagged in [fl]. *)
Definition content_firing (fl : bool * bool * bool * bool) : string :=
  let '(r1, r2, r3, r4) := fl in
  (if r1 then "class M: ObservableObject {} " else "") +:+
  (if r2 then "// force unwrap " else "") +:+
  (if r3 then "DispatchQueue.main.async {} " else "") +:+
  (if r4 then "VStack { ForEach(xs) {} }" else "").

(** ** Vocabulary of the further properties *)

(** A character of printable ASCII, from the space to the tilde. *)
Definition printable (c : ascii) : bool :=
  let n := N_of_ascii c in (32 <=? n)%N && (n <=? 126)%N.

Fixpoint all_printable (s : string) : bool :=
  match s with
  | EmptyString => true
  | String c s' => printable c && all_printable s'
  end.

(** The decoded values Python counts as false: [null], [false], the
    integer and the float zeros, and the empty str, list and object. *)
Definition falsy (v : value) : Prop :=
  v = PNone ∨ v = PBool false ∨ v = PInt 0 ∨
  (∃ sign, v = PFloat (S754_zero sign)) ∨
  v = PStr "" ∨ v = PList [] ∨ v = PDict ∅.

(** The keys of [tool_input] the script reads. *)
Definition READ_KEYS : list string := ["file_path"; "content"; "new_string"].

(** A Swift path whose selected content is the value [content], of any
    type. *)
Definition swift_path (json_loads : string → result value) (stdin : string)
    (content : value) : Prop :=
  ∃ input_data tool_input file_path,
    json_loads stdin = Ok input_data ∧
    get input_data "tool_input" (PDict ∅) = Ok tool_input ∧
    get tool_input "file_path" (PStr "") = Ok (PStr file_path) ∧
    Str.endswith file_path ".swift" = true ∧
    content_of tool_input = Ok content.

(** [{"tool_input": {"file_path": "View.swift", "content": [...]}}] with
    a list of strs as content, as value. *)
Definition list_content_value (items : list string) : value :=
  PDict {[ "tool_input" :=
             PDict (<[ "file_path" := PStr "View.swift" ]>
                    (<[ "content" := PList (map PStr items) ]> ∅)) ]}.

(** A sample input is a Swift edit: each part of [swift_edit] holds by
    evaluation. *)
Ltac sample_swift_edit :=
  unfold swift_edit; do 3 eexists;
  repeat (split; [reflexivity|]); reflexivity.

(** * Properties *)

(** ** The string methods mean what their names say *)

Lemma append_nil (s : string) : "" +:+ s = s.
Proof. reflexivity. Qed.

Lemma append_cons (a : ascii) (s t : string) :
  String a s +:+ t = String a (s +:+ t).
Proof. reflexivity. Qed.

Lemma append_assoc (a b c : string) : (a +:+ b) +:+ c = a +:+ b +:+ c.
Proof.
  induction a as [|x a IH]; [done |].
  by rewrite !append_cons, IH.
Qed.

Lemma startswith_spec (s pre : string) :
  Str.startswith s pre = true ↔ ∃ rest, s = pre +:+ rest.
Proof.
  revert s. induction pre as [|a pre IH]; intros s; simpl.
  - split; [intros _; by exists s | done].
  - destruct s as [|b s].
    + split; [done | intros [rest H]; discriminate].
    + rewrite andb_true_iff, Ascii.eqb_eq, IH. split.
      * intros [-> [rest ->]]. by exists rest.
      * intros [rest H]. rewrite append_cons in H.
        injection H as -> ->. split; [done | by exists rest].
Qed.

Lemma contains_spec (sub s : string) :
  Str.contains sub s = true ↔ ∃ before after, s = before +:+ sub +:+ after.
Proof.
  induction s as [|a s IH]; simpl.
  - rewrite orb_false_r, startswith_spec. split.
    + intros [rest H]. by exists "", rest.
    + intros [[|b before] [after H]]; [by exists after | discriminate].
  - rewrite orb_true_iff, startswith_spec, IH. split.
    + intros [[rest H] | (before & after & ->)].
      * by exists "", rest.
      * by exists (String a before), after.
    + intros [[|b before] [after H]].
      * left. by exists after.
      * right. rewrite append_cons in H.
        injection H as -> ->. by exists before, after.
Qed.

Lemma endswith_spec (s suffix : string) :
  Str.endswith s suffix = true ↔ ∃ before, s = before +:+ suffix.
Proof.
  induction s as [|a s IH].
  - change (Str.endswith "" suffix) with (String.eqb "" suffix || false).
    rewrite orb_false_r, String.eqb_eq. split.
    + intros <-. by exists "".
    + intros [[|b before] H]; [done | discriminate].
  - change (Str.endswith (String a s) suffix)
      with (String.eqb (String a s) suffix || Str.endswith s suffix).
    rewrite orb_true_iff, String.eqb_eq, IH. split.
    + intros [<- | [before ->]]; [by exists "" | by exists (String a before)].
    + intros [[|b before] H]; [by left |].
      right. rewrite append_cons in H.
      injection H as -> ->. by exists before.
Qed.

(** [s.count(c)] is the number of positions of [s] that hold [c]. *)
Lemma count_spec (s : string) (c : ascii) :
  Str.count s c =
  length (filter (λ a, a = c) (list_ascii_of_string s)).
Proof.
  induction s as [|a s IH]; simpl; [done |].
  rewrite filter_cons. destruct (Ascii.eqb_spec a c) as [->|Hne].
  - rewrite decide_True by done. simpl. by rewrite IH.
  - rewrite decide_False by done. by rewrite IH.
Qed.

(** A text that holds [big] holds every piece of [big]. *)
Lemma contains_trans (small big s : string) :
  Str.contains small big = true →
  Str.contains big s = true →
  Str.contains small s = true.
Proof.
  rewrite !contains_spec.
  intros (b1 & a1 & ->) (b2 & a2 & ->).
  exists (b2 +:+ b1), (a1 +:+ a2).
  by rewrite !append_assoc.
Qed.

(** ** The script prints once, and last *)

Lemma check_str (content : string) :
  check (PStr content) = Ok (advisories (fired content)).
Proof.
  unfold check, fired, advisories, rule_observable, rule_force_unwrap,
    rule_main_actor, rule_lazy_vstack, and_then, or_else, py_not_in.
  unfold mbind, result_bind, fmap, result_fmap, mret, result_ret.
  simpl.
  destruct (Str.contains "ObservableObject" content),
    (Str.contains "@Observable" content),
    (Str.contains "force unwrap" (Str.lower content)),
    (5 <? Str.count content "!"),
    (Str.contains "DispatchQueue.main" content),
    (Str.contains "async" content),
    (Str.contains "VStack {" content),
    (Str.contains "ForEach" content),
    (Str.contains "LazyVStack" content); reflexivity.
Qed.

Lemma report_response (reminders : list string) (st : streams) :
  report reminders st =
  print (json_dumps (response reminders)) Stdout st.
Proof. by destruct reminders. Qed.

(** [run] is [answer] followed by one [print]: on standard output when
    the [try] block ends normally, on the error stream when it raises. *)
Lemma run_answer (json_loads : string → result value) (stdin : string) :
  run json_loads stdin =
  match answer json_loads stdin with
  | Ok obj => on_stdout obj
  | Raise _ => on_stderr approve
  end.
Proof.
  unfold run, main, try_except, main_try, answer, on_stdout, on_stderr, printed.
  unfold mbind, Py_bind, result_bind, eval, mret, Py_ret, result_ret.
  destruct (json_loads stdin) as [input_data|e]; [|done].
  destruct (get input_data _ _) as [tool_input|e]; [|done].
  destruct (get tool_input _ _) as [file_path|e]; [|done].
  destruct (py_endswith file_path _) as [[]|e]; [| done | done].
  change (negb true) with false. cbv beta iota.
  destruct (content_of tool_input) as [content|e]; [|done].
  destruct (check content) as [reminders|e]; [|done].
  by rewrite report_response.
Qed.

(** An exception of the [try] block is an exception of [answer]. *)
Lemma main_try_answer (json_loads : string → result value) (stdin : string)
    (e : exn) (st : streams) :
  main_try json_loads stdin {| sys_stdout := ""; sys_stderr := "" |}
    = (Raise e, st) →
  answer json_loads stdin = Raise e.
Proof.
  unfold main_try, answer.
  unfold mbind, Py_bind, result_bind, eval, mret, Py_ret, result_ret.
  destruct (json_loads stdin) as [input_data|e1]; [|congruence].
  destruct (get input_data _ _) as [tool_input|e1]; [|congruence].
  destruct (get tool_input _ _) as [file_path|e1]; [|congruence].
  destruct (py_endswith file_path _) as [[]|e1];
    [| discriminate | congruence].
  change (negb true) with false. cbv beta iota.
  destruct (content_of tool_input) as [content|e1]; [|congruence].
  destruct (check content) as [reminders|e1]; [|congruence].
  rewrite report_response. discriminate.
Qed.

Lemma swift_edit_answer (json_loads : string → result value)
    (stdin content : string) :
  swift_edit json_loads stdin content →
  answer json_loads stdin = Ok (response (advisories (fired content))).
Proof.
  intros (input_data & tool_input & file_path & Hl & Ht & Hf & He & Hc).
  unfold answer. rewrite Hl. simpl. rewrite Ht. simpl. rewrite Hf. simpl.
  rewrite He. simpl. rewrite Hc. simpl. by rewrite check_str.
Qed.

Lemma swift_edit_run (json_loads : string → result value)
    (stdin content : string) :
  swift_edit json_loads stdin content →
  run json_loads stdin = on_stdout (response (advisories (fired content))).
Proof.
  intros H. by rewrite run_answer, (swift_edit_answer _ _ _ H).
Qed.

(** Only a str goes through the four rules without an exception. *)
Lemma check_ok_inv (content : value) (reminders : list string) :
  check content = Ok reminders →
  ∃ text, content = PStr text ∧ reminders = advisories (fired text).
Proof.
  destruct content as [| b | n | x | text | l | d];
    try (intros H; discriminate H).
  - rewrite check_str. intros [= <-]. by exists text.
  - unfold check, and_then, py_not_in.
    unfold mbind, result_bind, fmap, result_fmap, mret, result_ret. simpl.
    destruct (existsb (eq_str "ObservableObject") l); discriminate.
  - unfold check, and_then, py_not_in.
    unfold mbind, result_bind, fmap, result_fmap, mret, result_ret. simpl.
    destruct (d !! "ObservableObject"); discriminate.
Qed.

(** The message read back as lines gives the advisories, bulleted. *)
Lemma advisory_lines_response (fl : bool * bool * bool * bool) :
  advisory_lines (response (advisories fl)) = map bullet (advisories fl).
Proof. destruct fl as [[[[] []] []] []]; reflexivity. Qed.

Lemma message_lines_response (fl : bool * bool * bool * bool) :
  match field "message" (response (advisories fl)) with
  | Some text => Str.split LF text = HEADER :: map bullet (advisories fl)
  | None => advisories fl = []
  end.
Proof. destruct fl as [[[[] []] []] []]; reflexivity. Qed.

Lemma decision_response (reminders : list string) :
  field "decision" (response reminders) = Some "approve".
Proof. by destruct reminders. Qed.

Lemma advisories_length (fl : bool * bool * bool * bool) :
  length (advisories fl) ≤ 4.
Proof. destruct fl as [[[[] []] []] []]; simpl; lia. Qed.

(** The text of the default answer, character by character. *)
Lemma printed_approve :
  printed approve =
  "{" +:+ String DQUOTE "decision" +:+ String DQUOTE ": " +:+
  String DQUOTE "approve" +:+ String DQUOTE "}" +:+ String LF "".
Proof. reflexivity. Qed.

(** ** Errors *)

(** C1. Whatever standard input holds and whatever the decoder does with
    it, the script ends with status 0: no exception leaves [main].  When
    the [try] block raises (the decoder on malformed text, [get] or
    [endswith] or a rule on a value of the wrong type), the error stream
    receives the default answer. *)
Theorem main_never_crashes (json_loads : string → result value)
    (stdin : string) :
  exit_status (run json_loads stdin) = 0%Z ∧
  (∀ e, json_loads stdin = Raise e →
        stderr (run json_loads stdin) = printed approve) ∧
  (∀ e st,
      main_try json_loads stdin {| sys_stdout := ""; sys_stderr := "" |}
        = (Raise e, st) →
      stderr (run json_loads stdin) = printed approve).
Proof.
  split; [|split].
  - rewrite run_answer. by destruct (answer json_loads stdin).
  - intros e H. rewrite run_answer. unfold answer. by rewrite H.
  - intros e st H. by rewrite run_answer, (main_try_answer _ _ _ _ H).
Qed.

Lemma main_never_crashes_witness :
  exit_status (run (loads_only markdown_text markdown_value) "{oops") = 0%Z ∧
  stderr (run (loads_only markdown_text markdown_value) "{oops")
    = printed approve ∧
  stderr (run (loads_only bad_content_text bad_content_value) bad_content_text)
    = printed approve.
Proof.
  destruct (main_never_crashes
              (loads_only markdown_text markdown_value) "{oops")
    as (H0 & H1 & _).
  destruct (main_never_crashes
              (loads_only bad_content_text bad_content_value) bad_content_text)
    as (_ & _ & H2).
  split; [exact H0 | split].
  - apply (H1 JSONDecodeError). reflexivity.
  - apply (H2 TypeError {| sys_stdout := ""; sys_stderr := "" |}).
    reflexivity.
Defined.

(** C9. When the [try] block raises, standard output stays empty: the
    one default answer is on the error stream and nowhere else. *)
Theorem error_path_stdout_empty (json_loads : string → result value)
    (stdin : string) (e : exn) (st : streams) :
  main_try json_loads stdin {| sys_stdout := ""; sys_stderr := "" |}
    = (Raise e, st) →
  st = {| sys_stdout := ""; sys_stderr := "" |} ∧
  stdout (run json_loads stdin) = "" ∧
  run json_loads stdin = on_stderr approve.
Proof.
  intros H. pose proof (main_try_answer _ _ _ _ H) as Ha.
  rewrite run_answer, Ha. split; [|done].
  revert H. unfold main_try.
  unfold mbind, Py_bind, result_bind, eval, mret, Py_ret, result_ret.
  destruct (json_loads stdin) as [input_data|e1]; [|congruence].
  destruct (get input_data _ _) as [tool_input|e1]; [|congruence].
  destruct (get tool_input _ _) as [file_path|e1]; [|congruence].
  destruct (py_endswith file_path _) as [[]|e1];
    [| discriminate | congruence].
  change (negb true) with false. cbv beta iota.
  destruct (content_of tool_input) as [content|e1]; [|congruence].
  destruct (check content) as [reminders|e1]; [|congruence].
  rewrite report_response. discriminate.
Qed.

Lemma error_path_stdout_empty_witness :
  stdout (run (loads_only bad_content_text bad_content_value) bad_content_text)
    = "" ∧
  run (loads_only bad_content_text bad_content_value) bad_content_text
    = on_stderr approve.
Proof.
  apply (error_path_stdout_empty
           (loads_only bad_content_text bad_content_value) bad_content_text
           TypeError {| sys_stdout := ""; sys_stderr := "" |}).
  reflexivity.
Defined.

(** ** The applicability gate *)

(** C2. When [file_path] (the field's str, or the default empty str when
    the field is absent) does not end in [.swift], standard output is
    exactly the default answer, which has no [message] key.  The content
    fields are not looked at: [tool_input] is arbitrary here, so the
    answer is the same for contents on which a rule would raise. *)
Theorem non_swift_path_approves (json_loads : string → result value)
    (stdin : string) (input_data tool_input : value) (file_path : string) :
  json_loads stdin = Ok input_data →
  get input_data "tool_input" (PDict ∅) = Ok tool_input →
  get tool_input "file_path" (PStr "") = Ok (PStr file_path) →
  (∀ before, file_path ≠ before +:+ ".swift") →
  run json_loads stdin = on_stdout approve ∧
  field "message" approve = None ∧
  main_try json_loads stdin {| sys_stdout := ""; sys_stderr := "" |}
    = print (json_dumps approve) Stdout
        {| sys_stdout := ""; sys_stderr := "" |}.
Proof.
  intros Hl Ht Hf Hne.
  assert (Str.endswith file_path ".swift" = false) as He.
  { destruct (Str.endswith file_path ".swift") eqn:E; [|done].
    apply endswith_spec in E as [before ->]. by destruct (Hne before). }
  split; [|split; [done|]].
  - rewrite run_answer. unfold answer.
    rewrite Hl. simpl. rewrite Ht. simpl. rewrite Hf. simpl. by rewrite He.
  - unfold main_try.
    unfold mbind, Py_bind, result_bind, eval, mret, Py_ret, result_ret.
    rewrite Hl, Ht, Hf. simpl. by rewrite He.
Qed.

Lemma non_swift_path_approves_witness :
  run (loads_only markdown_text markdown_value) markdown_text
    = on_stdout approve ∧
  check (PInt 5) = Raise TypeError.
Proof.
  split; [|reflexivity].
  apply (non_swift_path_approves
           (loads_only markdown_text markdown_value) markdown_text
           markdown_value
           (PDict (<[ "file_path" := PStr "notes.md" ]>
                   (<[ "content" := PInt 5 ]> ∅)))
           "notes.md");
    try reflexivity.
  intros before H.
  assert (Str.endswith "notes.md" ".swift" = true) as E
    by (apply endswith_spec; by exists before).
  discriminate E.
Defined.

(** ** The rules *)

Lemma count_bullets (fl : bool * bool * bool * bool) :
  let '(r1, r2, r3, r4) := fl in
  let lines := map bullet (advisories fl) in
  count_occ string_dec lines (bullet ADVICE_OBSERVABLE)
    = (if r1 then 1 else 0) ∧
  count_occ string_dec lines (bullet ADVICE_FORCE_UNWRAP)
    = (if r2 then 1 else 0) ∧
  count_occ string_dec lines (bullet ADVICE_MAIN_ACTOR)
    = (if r3 then 1 else 0) ∧
  count_occ string_dec lines (bullet ADVICE_LAZY_VSTACK)
    = (if r4 then 1 else 0).
Proof. destruct fl as [[[[] []] []] []]; vm_compute; done. Qed.

Lemma In_count (lines : list string) (line : string) (flag : bool) :
  count_occ string_dec lines line = (if flag then 1 else 0) →
  (In line lines ↔ flag = true) ∧ count_occ string_dec lines line ≤ 1.
Proof.
  intros H. rewrite (count_occ_In string_dec), H.
  destruct flag; split; try lia; split; (done || lia).
Qed.

Lemma rule_force_unwrap_spec (content : string) :
  rule_force_unwrap content = true ↔
  (∃ before after, Str.lower content = before +:+ "force unwrap" +:+ after)
  ∨ 5 < Str.count content "!".
Proof.
  unfold rule_force_unwrap.
  by rewrite orb_true_iff, contains_spec, Nat.ltb_lt.
Qed.

Lemma rule_observable_spec (content : string) :
  rule_observable content = true ↔
  (∃ before after, content = before +:+ "ObservableObject" +:+ after) ∧
  ¬ (∃ before after, content = before +:+ "@Observable" +:+ after).
Proof.
  unfold rule_observable.
  rewrite andb_true_iff, negb_true_iff, <- not_true_iff_false.
  by rewrite !contains_spec.
Qed.

Lemma rule_lazy_vstack_spec (content : string) :
  rule_lazy_vstack content = true ↔
  (∃ before after, content = before +:+ "VStack {" +:+ after) ∧
  (∃ before after, content = before +:+ "ForEach" +:+ after) ∧
  ¬ (∃ before after, content = before +:+ "LazyVStack" +:+ after).
Proof.
  unfold rule_lazy_vstack.
  rewrite !andb_true_iff, negb_true_iff, <- not_true_iff_false.
  by rewrite !contains_spec.
Qed.

(** C3. On a Swift edit the rules return a list of reminders, and the
    script prints the answer built from it.  The force-unwrap line is
    among the advisory lines of that answer exactly when the lowercased
    content holds [force unwrap] or the content holds more than five [!];
    and when the line is there, it is there once. *)
Theorem force_unwrap_advisory (json_loads : string → result value)
    (stdin content : string) :
  swift_edit json_loads stdin content →
  ∃ reminders,
    check (PStr content) = Ok reminders ∧
    run json_loads stdin = on_stdout (response reminders) ∧
    (In (bullet ADVICE_FORCE_UNWRAP) (advisory_lines (response reminders)) ↔
       (∃ before after,
           Str.lower content = before +:+ "force unwrap" +:+ after)
       ∨ 5 < Str.count content "!") ∧
    (In (bullet ADVICE_FORCE_UNWRAP) (advisory_lines (response reminders)) →
       count_occ string_dec (advisory_lines (response reminders))
         (bullet ADVICE_FORCE_UNWRAP) = 1).
Proof.
  intros H. exists (advisories (fired content)).
  split; [apply check_str|].
  split; [by apply swift_edit_run|].
  rewrite advisory_lines_response, <- rule_force_unwrap_spec.
  pose proof (count_bullets (fired content)) as (_ & Hc & _).
  fold (rule_force_unwrap content) in Hc. revert Hc.
  generalize (map bullet (advisories (fired content))). intros lines Hc.
  destruct (In_count _ _ _ Hc) as [Hin _]. split; [done|].
  intros Hi. apply Hin in Hi. by rewrite Hc, Hi.
Qed.

Lemma force_unwrap_advisory_witness :
  ∃ reminders,
    check (PStr "a!b!c!d!e!f!") = Ok reminders ∧
    run (loads_edit (swift_fields "a!b!c!d!e!f!"))
        (edit_text (swift_fields "a!b!c!d!e!f!"))
      = on_stdout (response reminders) ∧
    (In (bullet ADVICE_FORCE_UNWRAP) (advisory_lines (response reminders)) ↔
       (∃ before after,
           Str.lower "a!b!c!d!e!f!" = before +:+ "force unwrap" +:+ after)
       ∨ 5 < Str.count "a!b!c!d!e!f!" "!") ∧
    (In (bullet ADVICE_FORCE_UNWRAP) (advisory_lines (response reminders)) →
       count_occ string_dec (advisory_lines (response reminders))
         (bullet ADVICE_FORCE_UNWRAP) = 1).
Proof.
  apply (force_unwrap_advisory
           (loads_edit (swift_fields "a!b!c!d!e!f!"))
           (edit_text (swift_fields "a!b!c!d!e!f!")) "a!b!c!d!e!f!").
  sample_swift_edit.
Defined.

(** C4. On a Swift edit whose content holds [ObservableObject] and does
    not hold [@Observable], the migration advisory is the first of the
    reminders, the printed answer has a message, and the line after the
    header of that message is the migration advisory. *)
Theorem observable_advisory_first (json_loads : string → result value)
    (stdin content : string) :
  swift_edit json_loads stdin content →
  (∃ before after, content = before +:+ "ObservableObject" +:+ after) →
  ¬ (∃ before after, content = before +:+ "@Observable" +:+ after) →
  ∃ reminders text rest,
    check (PStr content) = Ok reminders ∧
    run json_loads stdin = on_stdout (response reminders) ∧
    head reminders = Some ADVICE_OBSERVABLE ∧
    field "message" (response reminders) = Some text ∧
    Str.split LF text = HEADER :: bullet ADVICE_OBSERVABLE :: rest.
Proof.
  intros H Hold Hnew.
  assert (rule_observable content = true) as Hr
    by (by apply rule_observable_spec).
  exists (advisories (fired content)).
  rewrite (swift_edit_run _ _ _ H), check_str. unfold fired. rewrite Hr.
  destruct (rule_force_unwrap content), (rule_main_actor content),
    (rule_lazy_vstack content);
    do 2 eexists; repeat (split; [reflexivity|]); reflexivity.
Qed.

Lemma observable_advisory_first_witness :
  ∃ reminders text rest,
    check (PStr "class M: ObservableObject {}") = Ok reminders ∧
    run (loads_edit (swift_fields "class M: ObservableObject {}"))
        (edit_text (swift_fields "class M: ObservableObject {}"))
      = on_stdout (response reminders) ∧
    head reminders = Some ADVICE_OBSERVABLE ∧
    field "message" (response reminders) = Some text ∧
    Str.split LF text = HEADER :: bullet ADVICE_OBSERVABLE :: rest.
Proof.
  apply (observable_advisory_first
           (loads_edit (swift_fields "class M: ObservableObject {}"))
           (edit_text (swift_fields "class M: ObservableObject {}"))
           "class M: ObservableObject {}").
  - sample_swift_edit.
  - by exists "class M: ", " {}".
  - intros H. apply contains_spec in H. vm_compute in H. discriminate H.
Defined.

(** C7. On a Swift edit, the lazy-stack line is among the advisory lines
    of the printed answer exactly when the content holds [VStack {] and
    [ForEach] and does not hold [LazyVStack]. *)
Theorem lazy_vstack_advisory (json_loads : string → result value)
    (stdin content : string) :
  swift_edit json_loads stdin content →
  ∃ reminders,
    check (PStr content) = Ok reminders ∧
    run json_loads stdin = on_stdout (response reminders) ∧
    (In (bullet ADVICE_LAZY_VSTACK) (advisory_lines (response reminders)) ↔
       (∃ before after, content = before +:+ "VStack {" +:+ after) ∧
       (∃ before after, content = before +:+ "ForEach" +:+ after) ∧
       ¬ (∃ before after, content = before +:+ "LazyVStack" +:+ after)).
Proof.
  intros H. exists (advisories (fired content)).
  split; [apply check_str|].
  split; [by apply swift_edit_run|].
  rewrite advisory_lines_response, <- rule_lazy_vstack_spec.
  pose proof (count_bullets (fired content)) as (_ & _ & _ & Hc).
  fold (rule_lazy_vstack content) in Hc.
  by destruct (In_count _ _ _ Hc) as [Hin _].
Qed.

Lemma lazy_vstack_advisory_witness :
  ∃ reminders,
    check (PStr "VStack { ForEach(xs) {} }") = Ok reminders ∧
    run (loads_edit (swift_fields "VStack { ForEach(xs) {} }"))
        (edit_text (swift_fields "VStack { ForEach(xs) {} }"))
      = on_stdout (response reminders) ∧
    (In (bullet ADVICE_LAZY_VSTACK) (advisory_lines (response reminders)) ↔
       (∃ before after,
           "VStack { ForEach(xs) {} }" = before +:+ "VStack {" +:+ after) ∧
       (∃ before after,
           "VStack { ForEach(xs) {} }" = before +:+ "ForEach" +:+ after) ∧
       ¬ (∃ before after,
           "VStack { ForEach(xs) {} }" = before +:+ "LazyVStack" +:+ after)).
Proof.
  apply (lazy_vstack_advisory
           (loads_edit (swift_fields "VStack { ForEach(xs) {} }"))
           (edit_text (swift_fields "VStack { ForEach(xs) {} }"))
           "VStack { ForEach(xs) {} }").
  sample_swift_edit.
Defined.

(** C8. A content that holds [@ObservableObject] holds [@Observable]
    too, so the first rule adds nothing to [reminders]: the migration
    advisory is not among them, and its line is not in the answer a Swift
    edit with that content gets. *)
Theorem observable_object_attribute_suppresses (content : string) :
  (∃ before after, content = before +:+ "@ObservableObject" +:+ after) →
  (∃ before after, content = before +:+ "@Observable" +:+ after) ∧
  ∃ reminders,
    check (PStr content) = Ok reminders ∧
    ¬ In ADVICE_OBSERVABLE reminders ∧
    ¬ In (bullet ADVICE_OBSERVABLE) (advisory_lines (response reminders)) ∧
    ∀ json_loads stdin,
      swift_edit json_loads stdin content →
      run json_loads stdin = on_stdout (response reminders).
Proof.
  intros H. apply contains_spec in H.
  assert (Str.contains "@Observable" content = true) as Hnew
    by (by apply (contains_trans _ "@ObservableObject")).
  assert (rule_observable content = false) as Hr
    by (unfold rule_observable; rewrite Hnew; apply andb_false_r).
  split; [by apply contains_spec|].
  exists (advisories (fired content)). split; [apply check_str|].
  split; [|split].
  - unfold fired. rewrite Hr.
    destruct (rule_force_unwrap content), (rule_main_actor content),
      (rule_lazy_vstack content); vm_compute; intuition discriminate.
  - rewrite advisory_lines_response.
    pose proof (count_bullets (fired content)) as (Hc & _).
    fold (rule_observable content) in Hc.
    destruct (In_count _ _ _ Hc) as [Hin _]. rewrite Hin, Hr. discriminate.
  - intros json_loads stdin Hs. by apply swift_edit_run.
Qed.

Lemma observable_object_attribute_suppresses_witness :
  ∃ reminders,
    check (PStr "@ObservableObject class M {}") = Ok reminders ∧
    ¬ In ADVICE_OBSERVABLE reminders ∧
    run (loads_edit (swift_fields "@ObservableObject class M {}"))
        (edit_text (swift_fields "@ObservableObject class M {}"))
      = on_stdout (response reminders).
Proof.
  destruct (observable_object_attribute_suppresses
              "@ObservableObject class M {}")
    as (_ & reminders & Hc & Hn & _ & Hrun).
  - by exists "", " class M {}".
  - exists reminders. split; [exact Hc|]. split; [exact Hn|].
    apply Hrun. sample_swift_edit.
Defined.

(** ** The message *)

Lemma advisories_sublist (fl : bool * bool * bool * bool) :
  sublist (advisories fl) RULE_ORDER.
Proof.
  destruct fl as [[[[] []] []] []]; unfold advisories, RULE_ORDER; simpl;
    repeat constructor.
Qed.

Lemma spec_message_response (reminders : list string) :
  reminders ≠ [] →
  response reminders = approve_with (spec_message reminders).
Proof. by destruct reminders. Qed.

Lemma fired_content_firing (fl : bool * bool * bool * bool) :
  fired (content_firing fl) = fl.
Proof. destruct fl as [[[[] []] []] []]; reflexivity. Qed.

(** C5. On a Swift edit with at least one reminder, the message is the
    header line followed by one [- advisory] line per reminder, joined by
    newlines, and the reminders follow the order of the four rules.  Each
    of the sixteen combinations of rules is triggered by some content. *)
Theorem message_format :
  (∀ (json_loads : string → result value) (stdin content : string)
     (reminders : list string),
      swift_edit json_loads stdin content →
      check (PStr content) = Ok reminders →
      reminders ≠ [] →
      sublist reminders RULE_ORDER ∧
      run json_loads stdin = on_stdout (approve_with (spec_message reminders)))
  ∧
  (∀ fl : bool * bool * bool * bool,
      ∃ content,
        fired content = fl ∧
        check (PStr content) = Ok (advisories fl) ∧
        run (loads_edit (swift_fields content))
            (edit_text (swift_fields content))
          = on_stdout (response (advisories fl))).
Proof.
  split.
  - intros json_loads stdin content reminders H Hc Hne.
    assert (reminders = advisories (fired content)) as ->
      by (rewrite check_str in Hc; congruence).
    split; [apply advisories_sublist|].
    by rewrite (swift_edit_run _ _ _ H), spec_message_response.
  - intros fl. exists (content_firing fl).
    rewrite check_str, fired_content_firing.
    split; [done | split; [done|]].
    rewrite <- (fired_content_firing fl) at 3.
    apply swift_edit_run.
    destruct fl as [[[[] []] []] []]; sample_swift_edit.
Qed.

Lemma message_format_witness :
  sublist [ADVICE_OBSERVABLE; ADVICE_LAZY_VSTACK] RULE_ORDER ∧
  run (loads_edit (swift_fields (content_firing (true, false, false, true))))
      (edit_text (swift_fields (content_firing (true, false, false, true))))
    = on_stdout
        (approve_with
           (HEADER +:+ newline +:+ "- " +:+ ADVICE_OBSERVABLE +:+ newline
            +:+ "- " +:+ ADVICE_LAZY_VSTACK)).
Proof.
  destruct message_format as [H _].
  apply (H (loads_edit
              (swift_fields (content_firing (true, false, false, true))))
           (edit_text
              (swift_fields (content_firing (true, false, false, true))))
           (content_firing (true, false, false, true))
           [ADVICE_OBSERVABLE; ADVICE_LAZY_VSTACK]).
  - sample_swift_edit.
  - reflexivity.
  - discriminate.
Defined.

(** ** The content string *)

(** C6. When the [content] and [new_string] fields of [tool_input] are
    each absent or a str, the selected content is the str of
    [spec_content], and on a Swift path the answer is the one the rules
    give for that str. *)
Theorem content_precedence (d : gmap string value)
    (content new_string : option string) :
  d !! "content" = PStr <$> content →
  d !! "new_string" = PStr <$> new_string →
  content_of (PDict d) = Ok (PStr (spec_content content new_string)) ∧
  (∀ (json_loads : string → result value) (stdin : string)
     (input_data : value) (file_path : string),
      json_loads stdin = Ok input_data →
      get input_data "tool_input" (PDict ∅) = Ok (PDict d) →
      get (PDict d) "file_path" (PStr "") = Ok (PStr file_path) →
      Str.endswith file_path ".swift" = true →
      run json_loads stdin
        = on_stdout
            (response
               (advisories (fired (spec_content content new_string))))).
Proof.
  intros Hc Hn.
  assert (content_of (PDict d)
            = Ok (PStr (spec_content content new_string))) as H.
  { unfold content_of, get. rewrite Hc, Hn.
    by destruct content as [[|a c]|], new_string as [s|]. }
  split; [exact H|].
  intros json_loads stdin input_data file_path Hl Ht Hf He.
  apply swift_edit_run. by exists input_data, (PDict d), file_path.
Qed.

Lemma content_precedence_witness :
  content_of (PDict (tool_input_of fallback_fields))
    = Ok (PStr "// force unwrap") ∧
  run (loads_edit fallback_fields) (edit_text fallback_fields)
    = on_stdout (approve_with (spec_message [ADVICE_FORCE_UNWRAP])).
Proof.
  destruct (content_precedence (tool_input_of fallback_fields)
              (Some "") (Some "// force unwrap")) as [H1 H2];
    [reflexivity | reflexivity |].
  split; [exact H1|].
  apply (H2 (loads_edit fallback_fields) (edit_text fallback_fields)
            (edit_value fallback_fields) "View.swift"); reflexivity.
Defined.

(** ** The answer *)

Lemma answer_ok_inv (json_loads : string → result value) (stdin : string)
    (obj : list (string * string)) :
  answer json_loads stdin = Ok obj →
  ∃ fl, obj = response (advisories fl).
Proof.
  unfold answer. unfold mbind, result_bind, mret, result_ret.
  destruct (json_loads stdin) as [input_data|e]; [|discriminate].
  destruct (get input_data _ _) as [tool_input|e]; [|discriminate].
  destruct (get tool_input _ _) as [file_path|e]; [|discriminate].
  destruct (py_endswith file_path _) as [[]|e]; [| | discriminate].
  - change (negb true) with false. cbv beta iota.
    destruct (content_of tool_input) as [content|e]; [|discriminate].
    destruct (check content) as [reminders|e] eqn:Hc; [|discriminate].
    apply check_ok_inv in Hc as (text & _ & ->).
    intros [= <-]. by exists (fired text).
  - intros [= <-]. by exists (false, false, false, false).
Qed.

(** C10. Every run writes one object, on standard output or on the error
    stream: the answer built from a list of reminders in which each rule
    has at most its one advisory.  Its [decision] is [approve], and its
    message, if any, has at most four advisory lines after the header,
    five lines in all. *)
Theorem answer_bounded (json_loads : string → result value)
    (stdin : string) :
  ∃ reminders,
    let obj := response reminders in
    (run json_loads stdin = on_stdout obj ∨
     run json_loads stdin = on_stderr obj) ∧
    sublist reminders RULE_ORDER ∧
    field "decision" obj = Some "approve" ∧
    length (advisory_lines obj) ≤ 4 ∧
    match field "message" obj with
    | Some text => length (Str.split LF text) ≤ 5
    | None => True
    end.
Proof.
  rewrite run_answer.
  destruct (answer json_loads stdin) as [obj|e] eqn:Ha.
  - apply answer_ok_inv in Ha as [fl ->].
    exists (advisories fl). cbv zeta.
    split; [by left|]. split; [apply advisories_sublist|].
    split; [apply decision_response|].
    rewrite advisory_lines_response, length_map.
    split; [apply advisories_length|].
    pose proof (message_lines_response fl) as Hm.
    destruct (field "message" _) as [text|]; [|done].
    rewrite Hm. simpl. rewrite length_map.
    pose proof (advisories_length fl). lia.
  - exists []. cbv zeta. split; [by right|].
    split; [apply sublist_nil_l|].
    split; [reflexivity|]. split; [simpl; lia | exact I].
Qed.

(** ** The scenarios of the interface description *)

Example scenario_one_exclamation :
  run (loads_edit (swift_fields "let x = a!"))
      (edit_text (swift_fields "let x = a!"))
    = on_stdout approve.
Proof. reflexivity. Qed.

Example scenario_six_exclamations :
  run (loads_edit (swift_fields "a!b!c!d!e!f!"))
      (edit_text (swift_fields "a!b!c!d!e!f!"))
    = on_stdout
        (approve_with (HEADER +:+ newline +:+ "- " +:+ ADVICE_FORCE_UNWRAP)).
Proof. reflexivity. Qed.

Example scenario_wrong_extension :
  run (loads_edit [("file_path", "Model.py");
                   ("content", content_firing (true, true, true, true))])
      (edit_text [("file_path", "Model.py");
                  ("content", content_firing (true, true, true, true))])
    = on_stdout approve.
Proof. reflexivity. Qed.

Example scenario_malformed_input :
  run (loads_edit (swift_fields "let x = a!")) "{oops"
    = on_stderr approve.
Proof. reflexivity. Qed.

Example scenario_all_four :
  stdout (run (loads_edit
                 (swift_fields (content_firing (true, true, true, true))))
              (edit_text
                 (swift_fields (content_firing (true, true, true, true)))))
  = "{" +:+ String DQUOTE "decision" +:+ String DQUOTE ": " +:+
    String DQUOTE "approve" +:+ String DQUOTE ", " +:+
    String DQUOTE "message" +:+ String DQUOTE ": " +:+
    String DQUOTE "iOS Best Practices:\n" +:+
    "- Consider using @Observable (iOS 17+) instead of ObservableObject\n" +:+
    "- Avoid force unwrapping - use guard let or if let\n" +:+
    "- Consider @MainActor instead of DispatchQueue.main in async contexts\n"
    +:+ "- Consider LazyVStack for better performance with ForEach" +:+
    String DQUOTE "}" +:+ String LF "".
Proof. reflexivity. Qed.

(** ** Values of the wrong type *)

(** A list goes through the [in] tests of the first rule and fails at
    [lower]; a number fails at the first [in]. *)
Example check_list_content :
  check (PList [PStr "ObservableObject"]) = Raise AttributeError.
Proof. reflexivity. Qed.

Example check_number_content :
  check (PFloat (S754_finite false 3 (-1))) = Raise TypeError.
Proof. reflexivity. Qed.

(** A falsy [content] of any type gives way to [new_string]. *)
Example content_of_null :
  content_of (PDict (<[ "content" := PNone ]>
                     (<[ "new_string" := PStr "x!" ]> ∅)))
    = Ok (PStr "x!").
Proof. reflexivity. Qed.

(** Standard input that decodes to something other than an object. *)
Example run_on_a_list :
  run (loads_only "[]" (PList [])) "[]" = on_stderr approve.
Proof. reflexivity. Qed.

(** A [file_path] that is not a str. *)
Example run_on_a_null_path :
  run (λ _, Ok (PDict {[ "tool_input" :=
                           PDict {[ "file_path" := PNone ]} ]})) ""
    = on_stderr approve.
Proof. reflexivity. Qed.

(** * Further properties of [main] *)

(** ** The third rule *)

Lemma rule_main_actor_spec (content : string) :
  rule_main_actor content = true ↔
  (∃ before after, content = before +:+ "DispatchQueue.main" +:+ after) ∧
  (∃ before after, content = before +:+ "async" +:+ after).
Proof.
  unfold rule_main_actor. by rewrite andb_true_iff, !contains_spec.
Qed.

(** X1. On a Swift edit, the main-actor line is among the advisory lines
    of the printed answer exactly when the content holds
    [DispatchQueue.main] and holds [async], and then it is there once. *)
Theorem main_actor_advisory (json_loads : string → result value)
    (stdin content : string) :
  swift_edit json_loads stdin content →
  ∃ reminders,
    check (PStr content) = Ok reminders ∧
    run json_loads stdin = on_stdout (response reminders) ∧
    (In (bullet ADVICE_MAIN_ACTOR) (advisory_lines (response reminders)) ↔
       (∃ before after,
           content = before +:+ "DispatchQueue.main" +:+ after) ∧
       (∃ before after, content = before +:+ "async" +:+ after)) ∧
    (In (bullet ADVICE_MAIN_ACTOR) (advisory_lines (response reminders)) →
       count_occ string_dec (advisory_lines (response reminders))
         (bullet ADVICE_MAIN_ACTOR) = 1).
Proof.
  intros H. exists (advisories (fired content)).
  split; [apply check_str|].
  split; [by apply swift_edit_run|].
  rewrite advisory_lines_response, <- rule_main_actor_spec.
  pose proof (count_bullets (fired content)) as (_ & _ & Hc & _).
  fold (rule_main_actor content) in Hc. revert Hc.
  generalize (map bullet (advisories (fired content))). intros lines Hc.
  destruct (In_count _ _ _ Hc) as [Hin _]. split; [done|].
  intros Hi. apply Hin in Hi. by rewrite Hc, Hi.
Qed.

Lemma main_actor_advisory_witness :
  ∃ reminders,
    check (PStr "Task { DispatchQueue.main.sync {} } // async") = Ok reminders ∧
    run (loads_edit
           (swift_fields "Task { DispatchQueue.main.sync {} } // async"))
        (edit_text
           (swift_fields "Task { DispatchQueue.main.sync {} } // async"))
      = on_stdout (response reminders) ∧
    (In (bullet ADVICE_MAIN_ACTOR) (advisory_lines (response reminders)) ↔
       (∃ before after,
           "Task { DispatchQueue.main.sync {} } // async"
             = before +:+ "DispatchQueue.main" +:+ after) ∧
       (∃ before after,
           "Task { DispatchQueue.main.sync {} } // async"
             = before +:+ "async" +:+ after)) ∧
    (In (bullet ADVICE_MAIN_ACTOR) (advisory_lines (response reminders)) →
       count_occ string_dec (advisory_lines (response reminders))
         (bullet ADVICE_MAIN_ACTOR) = 1).
Proof.
  apply (main_actor_advisory
           (loads_edit
              (swift_fields "Task { DispatchQueue.main.sync {} } // async"))
           (edit_text
              (swift_fields "Task { DispatchQueue.main.sync {} } // async"))
           "Task { DispatchQueue.main.sync {} } // async").
  sample_swift_edit.
Defined.

(** X2. The call [DispatchQueue.main.async] holds both patterns of the
    third rule, so a content with that call always gets the main-actor
    advisory, whatever else it holds. *)
Theorem dispatch_main_async_always_advised (content : string) :
  (∃ before after,
      content = before +:+ "DispatchQueue.main.async" +:+ after) →
  ∃ reminders,
    check (PStr content) = Ok reminders ∧
    In ADVICE_MAIN_ACTOR reminders ∧
    In (bullet ADVICE_MAIN_ACTOR) (advisory_lines (response reminders)) ∧
    ∀ json_loads stdin,
      swift_edit json_loads stdin content →
      run json_loads stdin = on_stdout (response reminders).
Proof.
  intros H. apply contains_spec in H.
  assert (rule_main_actor content = true) as Hr.
  { unfold rule_main_actor.
    rewrite (contains_trans "DispatchQueue.main"
               "DispatchQueue.main.async" content eq_refl H).
    by rewrite (contains_trans "async"
                  "DispatchQueue.main.async" content eq_refl H). }
  exists (advisories (fired content)). split; [apply check_str|].
  split; [|split].
  - unfold fired. rewrite Hr.
    destruct (rule_observable content), (rule_force_unwrap content),
      (rule_lazy_vstack content); simpl; tauto.
  - rewrite advisory_lines_response.
    pose proof (count_bullets (fired content)) as (_ & _ & Hc & _).
    fold (rule_main_actor content) in Hc.
    destruct (In_count _ _ _ Hc) as [Hin _]. by apply Hin.
  - intros json_loads stdin Hs. by apply swift_edit_run.
Qed.

Lemma dispatch_main_async_always_advised_witness :
  ∃ reminders,
    check (PStr "DispatchQueue.main.asyncAfter(deadline: t) {}") = Ok reminders ∧
    In ADVICE_MAIN_ACTOR reminders ∧
    run (loads_edit
           (swift_fields "DispatchQueue.main.asyncAfter(deadline: t) {}"))
        (edit_text
           (swift_fields "DispatchQueue.main.asyncAfter(deadline: t) {}"))
      = on_stdout (response reminders).
Proof.
  destruct (dispatch_main_async_always_advised
              "DispatchQueue.main.asyncAfter(deadline: t) {}")
    as (reminders & Hc & Hi & _ & Hrun).
  - by exists "", "After(deadline: t) {}".
  - exists reminders. split; [exact Hc|]. split; [exact Hi|].
    apply Hrun. sample_swift_edit.
Defined.

(** ** Missing keys and values of the wrong type *)

(** X3. A decoded object without [tool_input], or whose [tool_input] is
    an object without [file_path], is not an error: the defaults make the
    path the empty str, which is no Swift path, and the default answer
    goes to standard output. *)
Theorem missing_keys_approve (json_loads : string → result value)
    (stdin : string) (d : gmap string value) :
  json_loads stdin = Ok (PDict d) →
  d !! "tool_input" = None ∨
  (∃ t, d !! "tool_input" = Some (PDict t) ∧ t !! "file_path" = None) →
  run json_loads stdin = on_stdout approve.
Proof.
  intros Hl H. rewrite run_answer. unfold answer, get. rewrite Hl. simpl.
  destruct H as [-> | (t & -> & Ht)]; simpl.
  - by rewrite lookup_empty.
  - by rewrite Ht.
Qed.

Lemma missing_keys_approve_witness :
  run (loads_only "{}" (PDict ∅)) "{}" = on_stdout approve.
Proof.
  apply (missing_keys_approve (loads_only "{}" (PDict ∅)) "{}" ∅).
  - reflexivity.
  - left. reflexivity.
Defined.

(** X4. A value of the wrong type where the script extracts its fields
    (the decoded input is not an object, [tool_input] is not an object,
    or [file_path] is not a str) makes the [try] block raise: standard
    output stays empty and the default answer goes to the error stream,
    whatever the content fields hold. *)
Theorem wrong_type_fails_open (json_loads : string → result value)
    (stdin : string) (input_data : value) :
  json_loads stdin = Ok input_data →
  (∀ d, input_data ≠ PDict d) ∨
  (∃ tool_input,
      get input_data "tool_input" (PDict ∅) = Ok tool_input ∧
      ∀ d, tool_input ≠ PDict d) ∨
  (∃ tool_input file_path,
      get input_data "tool_input" (PDict ∅) = Ok tool_input ∧
      get tool_input "file_path" (PStr "") = Ok file_path ∧
      ∀ s, file_path ≠ PStr s) →
  run json_loads stdin = on_stderr approve.
Proof.
  intros Hl H. rewrite run_answer. unfold answer. rewrite Hl. simpl.
  destruct H as [H | [(tool_input & Ht & H) | (tool_input & fp & Ht & Hf & H)]].
  - destruct input_data; try done. by destruct (H d).
  - rewrite Ht. simpl. destruct tool_input; try done. by destruct (H d).
  - rewrite Ht. simpl. rewrite Hf. simpl.
    destruct fp; try done. by destruct (H s).
Qed.

Lemma wrong_type_fails_open_witness :
  run (loads_only "[]" (PList [])) "[]" = on_stderr approve ∧
  run (λ _, Ok (PDict {[ "tool_input" := PStr "View.swift" ]})) ""
    = on_stderr approve ∧
  run (λ _, Ok (PDict {[ "tool_input" :=
                           PDict {[ "file_path" := PNone ]} ]})) ""
    = on_stderr approve.
Proof.
  split; [|split].
  - apply (wrong_type_fails_open (loads_only "[]" (PList [])) "[]" (PList []));
      [reflexivity | left; discriminate].
  - apply (wrong_type_fails_open
             (λ _, Ok (PDict {[ "tool_input" := PStr "View.swift" ]})) ""
             (PDict {[ "tool_input" := PStr "View.swift" ]}));
      [reflexivity | right; left].
    exists (PStr "View.swift"). split; [reflexivity | discriminate].
  - apply (wrong_type_fails_open
             (λ _, Ok (PDict {[ "tool_input" :=
                                  PDict {[ "file_path" := PNone ]} ]})) ""
             (PDict {[ "tool_input" := PDict {[ "file_path" := PNone ]} ]}));
      [reflexivity | right; right].
    exists (PDict {[ "file_path" := PNone ]}), PNone.
    split; [reflexivity | split; [reflexivity | discriminate]].
Defined.

(** No value but a str passes the four rules. *)
Lemma check_non_str (content : value) :
  (∀ s, content ≠ PStr s) → ∃ e, check content = Raise e.
Proof.
  intros H. destruct (check content) as [reminders|e] eqn:Hc; [|by exists e].
  apply check_ok_inv in Hc as (text & -> & _). by destruct (H text).
Qed.

(** X5. On a Swift path whose selected content is not a str, the rules
    raise and the run ends on the error stream with the default answer,
    also when the first rule had already matched: a list or an object
    that holds [ObservableObject] as an item or a key passes the [in]
    tests and fails at [lower], and the reminder collected so far is
    dropped. *)
Theorem non_str_content_fails_open (json_loads : string → result value)
    (stdin : string) (content : value) :
  swift_path json_loads stdin content →
  (∀ s, content ≠ PStr s) →
  run json_loads stdin = on_stderr approve.
Proof.
  intros (input_data & tool_input & file_path & Hl & Ht & Hf & He & Hc) H.
  destruct (check_non_str content H) as [e Hk].
  rewrite run_answer. unfold answer. rewrite Hl. simpl. rewrite Ht. simpl.
  rewrite Hf. simpl. rewrite He. simpl. rewrite Hc. simpl. by rewrite Hk.
Qed.

Lemma non_str_content_fails_open_witness :
  py_in "ObservableObject" (PList [PStr "ObservableObject"]) = Ok true ∧
  run (λ _, Ok (list_content_value ["ObservableObject"])) ""
    = on_stderr approve.
Proof.
  split; [reflexivity|].
  apply (non_str_content_fails_open
           (λ _, Ok (list_content_value ["ObservableObject"])) ""
           (PList [PStr "ObservableObject"])).
  - unfold swift_path. do 3 eexists.
    repeat (split; [reflexivity|]). reflexivity.
  - discriminate.
Defined.

(** ** Which field is the content *)

Lemma truthy_falsy (v : value) : truthy v = false ↔ falsy v.
Proof.
  unfold falsy. split.
  - destruct v as [| [] | n | [] | s | [|x l] | d]; simpl; try done;
      try tauto.
    + rewrite negb_false_iff, Z.eqb_eq. intros ->. tauto.
    + intros _. do 3 right. left. by eexists.
    + rewrite negb_false_iff, String.eqb_eq. intros ->. tauto.
    + destruct (map_to_list d) eqn:E; [|done].
      apply map_to_list_empty_iff in E as ->. tauto.
  - by intros [-> | [-> | [-> | [[sign ->] | [-> | [-> | ->]]]]]].
Qed.

(** X6. Which field the rules read, for fields of any type.  A [content]
    that is absent, [null], [false], a zero, or an empty str, list or
    object gives way to [new_string] (the empty str when that is absent
    too); every other [content] is used as it is, and [new_string] is
    not looked at. *)
Theorem content_of_any_type (d : gmap string value) :
  let fallback :=
    match d !! "new_string" with Some v => v | None => PStr "" end in
  (d !! "content" = None → content_of (PDict d) = Ok fallback) ∧
  (∀ v, d !! "content" = Some v → falsy v →
        content_of (PDict d) = Ok fallback) ∧
  (∀ v, d !! "content" = Some v → ¬ falsy v →
        content_of (PDict d) = Ok v).
Proof.
  cbv zeta. unfold content_of, get. simpl. split; [|split].
  - by intros ->.
  - intros v -> Hv. apply truthy_falsy in Hv. by rewrite Hv.
  - intros v -> Hv. rewrite <- truthy_falsy in Hv.
    by destruct (truthy v).
Qed.

Lemma content_of_any_type_witness :
  content_of (PDict (<[ "content" := PList [] ]>
                     (<[ "new_string" := PStr "x!" ]> ∅)))
    = Ok (PStr "x!") ∧
  content_of (PDict (<[ "content" := PStr "let a = b" ]>
                     (<[ "new_string" := PInt 7 ]> ∅)))
    = Ok (PStr "let a = b").
Proof.
  split.
  - pose proof (content_of_any_type
                  (<[ "content" := PList [] ]>
                   (<[ "new_string" := PStr "x!" ]> ∅))) as H.
    cbv zeta in H. destruct H as (_ & H & _).
    apply (H (PList [])); [reflexivity | unfold falsy; tauto].
  - pose proof (content_of_any_type
                  (<[ "content" := PStr "let a = b" ]>
                   (<[ "new_string" := PInt 7 ]> ∅))) as H.
    cbv zeta in H. destruct H as (_ & _ & H).
    apply (H (PStr "let a = b")); [reflexivity|].
    intros Hf. apply truthy_falsy in Hf. discriminate Hf.
Defined.

(** ** The text on the streams *)

Lemma all_printable_app (a b : string) :
  all_printable (a +:+ b) = all_printable a && all_printable b.
Proof.
  induction a as [|c a IH]; [done |].
  rewrite append_cons. simpl. by rewrite IH, andb_assoc.
Qed.

Lemma escape_char_printable (c : ascii) : all_printable (escape_char c) = true.
Proof. by destruct c as [[] [] [] [] [] [] [] []]. Qed.

Lemma escape_printable (s : string) : all_printable (escape s) = true.
Proof.
  induction s as [|c s IH]; [done |].
  simpl. by rewrite all_printable_app, escape_char_printable, IH.
Qed.

Lemma dumps_str_printable (s : string) : all_printable (dumps_str s) = true.
Proof.
  unfold dumps_str. rewrite all_printable_app.
  change (all_printable (String DQUOTE (escape s)))
    with (printable DQUOTE && all_printable (escape s)).
  by rewrite escape_printable.
Qed.

Lemma dumps_item_printable (kv : string * string) :
  all_printable (dumps_item kv) = true.
Proof.
  unfold dumps_item. by rewrite !all_printable_app, !dumps_str_printable.
Qed.

Lemma join_printable (sep : string) (parts : list string) :
  all_printable sep = true →
  Forall (λ p, all_printable p = true) parts →
  all_printable (Str.join sep parts) = true.
Proof.
  intros Hs. induction 1 as [|p rest Hp _ IH]; [done |].
  destruct rest as [|q rest]; [done |].
  change (Str.join sep (p :: q :: rest))
    with (p +:+ sep +:+ Str.join sep (q :: rest)).
  by rewrite !all_printable_app, Hp, Hs, IH.
Qed.

(** Whatever the keys and the values hold, the dumped text is printable
    ASCII: quotes, backslashes, control and non-ASCII characters are all
    escaped. *)
Lemma json_dumps_printable (obj : list (string * string)) :
  all_printable (json_dumps obj) = true.
Proof.
  unfold json_dumps. rewrite !all_printable_app.
  rewrite join_printable; [done | done |].
  apply Forall_forall. intros p Hp.
  apply list_elem_of_In, in_map_iff in Hp as (kv & <- & _).
  apply dumps_item_printable.
Qed.

(** X7. Every run writes exactly one line, on exactly one of the two
    streams: a text of printable ASCII characters followed by one
    newline.  The newlines inside a message are escaped by [json.dumps],
    so an answer with several advisories is still one line. *)
Theorem one_printable_line (json_loads : string → result value)
    (stdin : string) :
  ∃ line,
    all_printable line = true ∧
    Str.count line LF = 0 ∧
    ((stdout (run json_loads stdin) = line +:+ newline ∧
      stderr (run json_loads stdin) = "") ∨
     (stdout (run json_loads stdin) = "" ∧
      stderr (run json_loads stdin) = line +:+ newline)).
Proof.
  assert (∀ s, all_printable s = true → Str.count s LF = 0) as Hcount.
  { induction s as [|c s IH]; [done |]. simpl.
    intros [Hc Hs]%andb_true_iff. rewrite (IH Hs).
    destruct (Ascii.eqb_spec c LF) as [->|]; [discriminate Hc | done]. }
  rewrite run_answer.
  destruct (answer json_loads stdin) as [obj|e].
  - exists (json_dumps obj).
    split; [apply json_dumps_printable|].
    split; [apply Hcount, json_dumps_printable|]. by left.
  - exists (json_dumps approve).
    split; [apply json_dumps_printable|].
    split; [apply Hcount, json_dumps_printable|]. by right.
Qed.

(** ** Letter case *)

Lemma lower_app (a b : string) :
  Str.lower (a +:+ b) = Str.lower a +:+ Str.lower b.
Proof.
  induction a as [|c a IH]; [done |].
  rewrite append_cons. simpl. by rewrite IH, append_cons.
Qed.

(** X8. The phrase of the second rule is found in any letter case: a
    content that holds a text whose lowercase form is [force unwrap]
    gets the force-unwrap advisory, however few [!] it holds. *)
Theorem force_unwrap_any_case (content phrase : string) :
  (∃ before after, content = before +:+ phrase +:+ after) →
  Str.lower phrase = "force unwrap" →
  ∃ reminders,
    check (PStr content) = Ok reminders ∧
    In ADVICE_FORCE_UNWRAP reminders ∧
    In (bullet ADVICE_FORCE_UNWRAP) (advisory_lines (response reminders)) ∧
    ∀ json_loads stdin,
      swift_edit json_loads stdin content →
      run json_loads stdin = on_stdout (response reminders).
Proof.
  intros (before & after & ->) Hp.
  assert (rule_force_unwrap (before +:+ phrase +:+ after) = true) as Hr.
  { apply rule_force_unwrap_spec. left.
    exists (Str.lower before), (Str.lower after).
    by rewrite !lower_app, Hp. }
  set (content := before +:+ phrase +:+ after) in *.
  exists (advisories (fired content)). split; [apply check_str|].
  split; [|split].
  - unfold fired. rewrite Hr.
    destruct (rule_observable content), (rule_main_actor content),
      (rule_lazy_vstack content); simpl; tauto.
  - rewrite advisory_lines_response.
    pose proof (count_bullets (fired content)) as (_ & Hc & _).
    fold (rule_force_unwrap content) in Hc.
    destruct (In_count _ _ _ Hc) as [Hin _]. by apply Hin.
  - intros json_loads stdin Hs. by apply swift_edit_run.
Qed.

Lemma force_unwrap_any_case_witness :
  ∃ reminders,
    check (PStr "// TODO: Force Unwrap here") = Ok reminders ∧
    In ADVICE_FORCE_UNWRAP reminders ∧
    run (loads_edit (swift_fields "// TODO: Force Unwrap here"))
        (edit_text (swift_fields "// TODO: Force Unwrap here"))
      = on_stdout (response reminders).
Proof.
  destruct (force_unwrap_any_case
              "// TODO: Force Unwrap here" "Force Unwrap")
    as (reminders & Hc & Hi & _ & Hrun).
  - by exists "// TODO: ", " here".
  - reflexivity.
  - exists reminders. split; [exact Hc|]. split; [exact Hi|].
    apply Hrun. sample_swift_edit.
Defined.

(** ** What the script does not read *)

(** X9. Only [tool_input] and, inside it, [file_path], [content] and
    [new_string] are read.  Two inputs whose [tool_input] objects agree
    on these three keys get the same streams and the same status,
    whatever other keys the two inputs and their [tool_input] hold. *)
Theorem unread_keys_ignored (loads1 loads2 : string → result value)
    (stdin1 stdin2 : string) (d1 d2 t1 t2 : gmap string value) :
  loads1 stdin1 = Ok (PDict d1) →
  loads2 stdin2 = Ok (PDict d2) →
  d1 !! "tool_input" = Some (PDict t1) →
  d2 !! "tool_input" = Some (PDict t2) →
  (∀ key, In key READ_KEYS → t1 !! key = t2 !! key) →
  run loads1 stdin1 = run loads2 stdin2.
Proof.
  intros Hl1 Hl2 Ht1 Ht2 Hk.
  assert (t1 !! "file_path" = t2 !! "file_path") as Hf
    by (apply Hk; simpl; tauto).
  assert (t1 !! "content" = t2 !! "content") as Hc
    by (apply Hk; simpl; tauto).
  assert (t1 !! "new_string" = t2 !! "new_string") as Hn
    by (apply Hk; simpl; tauto).
  rewrite !run_answer. unfold answer, content_of, get.
  rewrite Hl1, Hl2. simpl. rewrite Ht1, Ht2. simpl.
  by rewrite Hf, Hc, Hn.
Qed.

Lemma unread_keys_ignored_witness :
  run (loads_edit (swift_fields "a!b!c!d!e!f!"))
      (edit_text (swift_fields "a!b!c!d!e!f!"))
  = run (λ _, Ok (PDict (<[ "session_id" := PInt 42 ]>
                         {[ "tool_input" :=
                              PDict (<[ "old_string" := PStr "force unwrap" ]>
                                     (tool_input_of
                                        (swift_fields "a!b!c!d!e!f!"))) ]})))
        "".
Proof.
  apply (unread_keys_ignored _ _ _ _
           {[ "tool_input" :=
                PDict (tool_input_of (swift_fields "a!b!c!d!e!f!")) ]}
           (<[ "session_id" := PInt 42 ]>
            {[ "tool_input" :=
                 PDict (<[ "old_string" := PStr "force unwrap" ]>
                        (tool_input_of (swift_fields "a!b!c!d!e!f!"))) ]})
           (tool_input_of (swift_fields "a!b!c!d!e!f!"))
           (<[ "old_string" := PStr "force unwrap" ]>
            (tool_input_of (swift_fields "a!b!c!d!e!f!"))));
    try reflexivity.
  intros key [<- | [<- | [<- | []]]]; reflexivity.
Defined.

(** ** When the answer has no message *)

(** X10. On a Swift edit the answer is the bare default, without a
    message, exactly when none of the four conditions holds. *)
Theorem bare_answer_iff_no_rule (json_loads : string → result value)
    (stdin content : string) :
  swift_edit json_loads stdin content →
  run json_loads stdin = on_stdout approve ↔
  ¬ ((∃ before after, content = before +:+ "ObservableObject" +:+ after) ∧
     ¬ (∃ before after, content = before +:+ "@Observable" +:+ after)) ∧
  ¬ ((∃ before after,
         Str.lower content = before +:+ "force unwrap" +:+ after)
     ∨ 5 < Str.count content "!") ∧
  ¬ ((∃ before after, content = before +:+ "DispatchQueue.main" +:+ after) ∧
     (∃ before after, content = before +:+ "async" +:+ after)) ∧
  ¬ ((∃ before after, content = before +:+ "VStack {" +:+ after) ∧
     (∃ before after, content = before +:+ "ForEach" +:+ after) ∧
     ¬ (∃ before after, content = before +:+ "LazyVStack" +:+ after)).
Proof.
  intros H. rewrite (swift_edit_run _ _ _ H).
  rewrite <- rule_observable_spec, <- rule_force_unwrap_spec,
    <- rule_main_actor_spec, <- rule_lazy_vstack_spec.
  unfold fired.
  destruct (rule_observable content), (rule_force_unwrap content),
    (rule_main_actor content), (rule_lazy_vstack content);
    (split;
     [ intros E; try (vm_compute in E; discriminate E);
       repeat split; discriminate
     | intros (H1 & H2 & H3 & H4); try reflexivity;
       first [ by destruct H1 | by destruct H2
             | by destruct H3 | by destruct H4 ] ]).
Qed.

Lemma bare_answer_iff_no_rule_witness :
  run (loads_edit (swift_fields "let x = a!"))
      (edit_text (swift_fields "let x = a!"))
    = on_stdout approve.
Proof.
  apply (bare_answer_iff_no_rule
           (loads_edit (swift_fields "let x = a!"))
           (edit_text (swift_fields "let x = a!")) "let x = a!").
  - sample_swift_edit.
  - rewrite <- rule_observable_spec, <- rule_force_unwrap_spec,
      <- rule_main_actor_spec, <- rule_lazy_vstack_spec.
    repeat split; intros E; vm_compute in E; discriminate E.
Defined.

(** X11. A Swift edit that carries no text at all, with neither a
    [content] nor a [new_string] key, is approved on standard output
    without a message: both defaults are the empty str and no rule
    matches it. *)
Theorem swift_without_text_approves (json_loads : string → result value)
    (stdin : string) (input_data : value) (t : gmap string value)
    (file_path : string) :
  json_loads stdin = Ok input_data →
  get input_data "tool_input" (PDict ∅) = Ok (PDict t) →
  t !! "file_path" = Some (PStr file_path) →
  (∃ before, file_path = before +:+ ".swift") →
  t !! "content" = None →
  t !! "new_string" = None →
  content_of (PDict t) = Ok (PStr "") ∧
  run json_loads stdin = on_stdout approve.
Proof.
  intros Hl Ht Hf He Hc Hn.
  assert (content_of (PDict t) = Ok (PStr "")) as Hco
    by (unfold content_of, get; simpl; by rewrite Hc, Hn).
  split; [exact Hco|].
  apply endswith_spec in He.
  change (on_stdout approve)
    with (on_stdout (response (advisories (fired "")))).
  apply swift_edit_run.
  exists input_data, (PDict t), file_path.
  repeat (split; [done|]). split; [|done].
  unfold get. by rewrite Hf.
Qed.

Lemma swift_without_text_approves_witness :
  run (loads_edit [("file_path", "View.swift")])
      (edit_text [("file_path", "View.swift")])
    = on_stdout approve.
Proof.
  apply (swift_without_text_approves
           (loads_edit [("file_path", "View.swift")])
           (edit_text [("file_path", "View.swift")])
           (edit_value [("file_path", "View.swift")])
           (tool_input_of [("file_path", "View.swift")])
           "View.swift"); try reflexivity.
  by exists "View".
Defined.
